(** * Shallow embedding of the audio manager (components/xn_audio_manager/src/audio_manager.c)

    The process-wide context [s_ctx] is the state of a small state monad.
    Every call the manager makes into a collaborator (I2S HAL, ring buffer,
    playback controller, AFE wrapper, button handler) or into the
    application's callbacks is appended to a call log, so that the order of
    creations and destructions can be observed.  What a collaborator returns
    is given by an environment [Env]. *)

From Stdlib Require Import ZArith List String Bool Lia.
Import ListNotations.
Open Scope Z_scope.

(** ** esp_err_t *)

Definition esp_err_t := Z.
Definition ESP_OK : esp_err_t := 0.
Definition ESP_FAIL : esp_err_t := -1.
Definition ESP_ERR_NO_MEM : esp_err_t := 257.
Definition ESP_ERR_INVALID_ARG : esp_err_t := 258.
Definition ESP_ERR_INVALID_STATE : esp_err_t := 259.

(** A pointer/handle: [None] is NULL, [Some a] a non-null address. *)
Definition ptr := option nat.

(** ** Configuration records (audio_manager.h) *)

Record i2s_port_config := {
  port : Z; bclk_gpio : Z; lrck_gpio : Z; data_gpio : Z;
  sample_rate : Z; bits : Z }.

Record button_config := { btn_gpio : Z; active_low : bool }.

Record audio_mgr_hw_config := {
  mic : i2s_port_config; speaker : i2s_port_config; button : button_config }.

Record audio_mgr_wakeup_config_t := {
  wk_enabled : bool;
  wake_word_name : ptr;
  model_partition : ptr;
  sensitivity : Z;
  wakeup_timeout_ms : Z;
  wakeup_end_delay_ms : Z }.

Record audio_mgr_vad_config := {
  vad_enabled : bool; vad_mode : Z; min_speech_ms : Z; min_silence_ms : Z }.

Record audio_mgr_afe_config := {
  aec_enabled : bool; ns_enabled : bool; agc_enabled : bool; afe_mode : Z }.

Record audio_mgr_config_t := {
  hw_config : audio_mgr_hw_config;
  wakeup_config : audio_mgr_wakeup_config_t;
  vad_config : audio_mgr_vad_config;
  afe_config : audio_mgr_afe_config;
  event_callback : ptr;
  user_ctx : ptr }.

(** The AFE's view of the wake-word settings ([afe_wakeup_config_t]). *)
Record afe_wakeup_config_t := {
  afe_wk_enabled : bool;
  afe_wake_word_name : ptr;
  afe_model_partition : ptr;
  afe_sensitivity : Z }.

(** All-zero values, as left by [memset] or [= {0}]. *)
Definition zero_port : i2s_port_config := Build_i2s_port_config 0 0 0 0 0 0.
Definition zero_hw : audio_mgr_hw_config :=
  Build_audio_mgr_hw_config zero_port zero_port (Build_button_config 0 false).
Definition zero_wakeup : audio_mgr_wakeup_config_t :=
  Build_audio_mgr_wakeup_config_t false None None 0 0 0.
Definition zero_config : audio_mgr_config_t :=
  Build_audio_mgr_config_t zero_hw zero_wakeup
    (Build_audio_mgr_vad_config false 0 0 0)
    (Build_audio_mgr_afe_config false false false 0) None None.

(** ** The context [audio_manager_ctx_t] *)

Record audio_manager_ctx_t := mkCtx {
  config : audio_mgr_config_t;
  i2s_hal : ptr;
  playback_ctrl : ptr;
  button_handler : ptr;
  afe_wrapper : ptr;
  reference_rb : ptr;
  initialized : bool;
  running : bool;
  recording : bool;
  volume : Z;
  record_callback : ptr;
  record_ctx : ptr }.

(** [static audio_manager_ctx_t s_ctx = {0};] and [memset(&s_ctx, 0, ...)]. *)
Definition ctx_zero : audio_manager_ctx_t :=
  mkCtx zero_config None None None None None false false false 0 None None.

(** ** Events *)

Inductive afe_event_type := AFE_EVENT_WAKEUP_DETECTED | AFE_EVENT_VAD_START | AFE_EVENT_VAD_END.

Record afe_event_t := {
  afe_type : afe_event_type;
  afe_wake_word_index : Z;
  afe_volume_db : Z }.

Inductive button_event_type_t := BUTTON_EVENT_PRESS | BUTTON_EVENT_RELEASE.

Inductive audio_mgr_event_type :=
| AUDIO_MGR_EVENT_NONE (* the zero discriminant of [= {0}] *)
| AUDIO_MGR_EVENT_WAKEUP_DETECTED
| AUDIO_MGR_EVENT_VAD_START
| AUDIO_MGR_EVENT_VAD_END
| AUDIO_MGR_EVENT_BUTTON_TRIGGER
| AUDIO_MGR_EVENT_BUTTON_RELEASE.

Record audio_mgr_event_t := mkEvent {
  ev_type : audio_mgr_event_type;
  ev_wake_word_index : Z;
  ev_volume_db : Z }.

Definition mgr_event_zero := mkEvent AUDIO_MGR_EVENT_NONE 0 0.

(** ** Calls made by the manager *)

Inductive collab := HAL | RB | PC | AFE | BTN.

Inductive call :=
| Create (c : collab)
| Destroy (c : collab) (h : nat)
| PcGetReference (h : ptr)
| PcWrite (h : ptr) (data : ptr) (n : nat)
| PcStart (h : ptr)
| PcStop (h : ptr)
| PcClear (h : ptr)
| PcFreeSpace (h : ptr)
| PcIsRunning (h : ptr)
| AfeUpdateWakeup (h : ptr) (w : afe_wakeup_config_t)
| AppEvent (cb : ptr) (ev : audio_mgr_event_t) (uctx : ptr)
| AppRecord (cb : ptr) (pcm : ptr) (samples : nat) (uctx : ptr).

(** What the collaborators answer. *)
Record Env := {
  e_create : collab -> ptr;              (* xxx_create: handle or NULL *)
  e_pc_reference : ptr -> ptr;           (* playback_controller_get_reference_buffer *)
  e_pc_write : ptr -> ptr -> nat -> esp_err_t;
  e_pc_start : ptr -> esp_err_t;
  e_pc_stop : ptr -> esp_err_t;
  e_pc_clear : ptr -> esp_err_t;
  e_pc_free_space : ptr -> nat;
  e_pc_is_running : ptr -> bool;
  e_afe_update : ptr -> afe_wakeup_config_t -> esp_err_t }.

(** ** A state monad over the context and the call log *)

Record world := mkWorld { ctx : audio_manager_ctx_t; log : list call }.

Definition M (A : Type) := world -> A * world.

Definition ret {A} (a : A) : M A := fun w => (a, w).
Definition bind {A B} (m : M A) (f : A -> M B) : M B :=
  fun w => let (a, w') := m w in f a w'.

Notation "x <-- m ;; k" := (bind m (fun x => k)) (at level 61, m at next level, right associativity).
Notation "m ;;; k" := (bind m (fun _ => k)) (at level 61, right associativity).

Definition get_ctx : M audio_manager_ctx_t := fun w => (ctx w, w).
Definition modify_ctx (f : audio_manager_ctx_t -> audio_manager_ctx_t) : M unit :=
  fun w => (tt, mkWorld (f (ctx w)) (log w)).
Definition emit (c : call) : M unit :=
  fun w => (tt, mkWorld (ctx w) (log w ++ [c])).

(** Field updates of the context. *)
Definition set_config v c := mkCtx v (i2s_hal c) (playback_ctrl c) (button_handler c) (afe_wrapper c) (reference_rb c) (initialized c) (running c) (recording c) (volume c) (record_callback c) (record_ctx c).
Definition set_i2s_hal v c := mkCtx (config c) v (playback_ctrl c) (button_handler c) (afe_wrapper c) (reference_rb c) (initialized c) (running c) (recording c) (volume c) (record_callback c) (record_ctx c).
Definition set_playback_ctrl v c := mkCtx (config c) (i2s_hal c) v (button_handler c) (afe_wrapper c) (reference_rb c) (initialized c) (running c) (recording c) (volume c) (record_callback c) (record_ctx c).
Definition set_button_handler v c := mkCtx (config c) (i2s_hal c) (playback_ctrl c) v (afe_wrapper c) (reference_rb c) (initialized c) (running c) (recording c) (volume c) (record_callback c) (record_ctx c).
Definition set_afe_wrapper v c := mkCtx (config c) (i2s_hal c) (playback_ctrl c) (button_handler c) v (reference_rb c) (initialized c) (running c) (recording c) (volume c) (record_callback c) (record_ctx c).
Definition set_reference_rb v c := mkCtx (config c) (i2s_hal c) (playback_ctrl c) (button_handler c) (afe_wrapper c) v (initialized c) (running c) (recording c) (volume c) (record_callback c) (record_ctx c).
Definition set_initialized v c := mkCtx (config c) (i2s_hal c) (playback_ctrl c) (button_handler c) (afe_wrapper c) (reference_rb c) v (running c) (recording c) (volume c) (record_callback c) (record_ctx c).
Definition set_running v c := mkCtx (config c) (i2s_hal c) (playback_ctrl c) (button_handler c) (afe_wrapper c) (reference_rb c) (initialized c) v (recording c) (volume c) (record_callback c) (record_ctx c).
Definition set_recording v c := mkCtx (config c) (i2s_hal c) (playback_ctrl c) (button_handler c) (afe_wrapper c) (reference_rb c) (initialized c) (running c) v (volume c) (record_callback c) (record_ctx c).
Definition set_volume v c := mkCtx (config c) (i2s_hal c) (playback_ctrl c) (button_handler c) (afe_wrapper c) (reference_rb c) (initialized c) (running c) (recording c) v (record_callback c) (record_ctx c).
Definition set_record_cb cb u c := mkCtx (config c) (i2s_hal c) (playback_ctrl c) (button_handler c) (afe_wrapper c) (reference_rb c) (initialized c) (running c) (recording c) (volume c) cb u.
Definition set_wakeup_config (w : audio_mgr_wakeup_config_t) c :=
  let cf := config c in
  set_config (Build_audio_mgr_config_t (hw_config cf) w (vad_config cf) (afe_config cf)
                (event_callback cf) (user_ctx cf)) c.

Section Manager.

Variable E : Env.

(** ** Collaborator calls *)

Definition create (k : collab) : M ptr := emit (Create k) ;;; ret (e_create E k).
Definition destroy (k : collab) (h : ptr) : M unit :=
  match h with Some a => emit (Destroy k a) | None => ret tt end.

Definition playback_controller_get_reference_buffer (h : ptr) : M ptr :=
  emit (PcGetReference h) ;;; ret (e_pc_reference E h).
Definition playback_controller_write (h d : ptr) (n : nat) : M esp_err_t :=
  emit (PcWrite h d n) ;;; ret (e_pc_write E h d n).
Definition playback_controller_start (h : ptr) : M esp_err_t :=
  emit (PcStart h) ;;; ret (e_pc_start E h).
Definition playback_controller_stop (h : ptr) : M esp_err_t :=
  emit (PcStop h) ;;; ret (e_pc_stop E h).
Definition playback_controller_clear (h : ptr) : M esp_err_t :=
  emit (PcClear h) ;;; ret (e_pc_clear E h).
Definition playback_controller_is_running (h : ptr) : M bool :=
  emit (PcIsRunning h) ;;; ret (e_pc_is_running E h).
Definition afe_wrapper_update_wakeup_config (h : ptr) (w : afe_wakeup_config_t) : M esp_err_t :=
  emit (AfeUpdateWakeup h w) ;;; ret (e_afe_update E h w).

(** ** audio_manager_init

    The collaborator configurations built from [config] (pins, sample rates,
    buffer sizes, callbacks, pointers to [s_ctx.running] etc.) are passed to
    the collaborators and do not flow back into [s_ctx]; the log records
    which collaborator is created. *)

Definition audio_manager_init (cfg : option audio_mgr_config_t) : M esp_err_t :=
  c <-- get_ctx ;;
  if initialized c then ret ESP_OK else
  match cfg with
  | None => ret ESP_ERR_INVALID_ARG
  | Some cf =>
    match event_callback cf with
    | None => ret ESP_ERR_INVALID_ARG
    | Some _ =>
      modify_ctx (set_config cf) ;;;
      modify_ctx (set_volume 80) ;;;
      (* 1. I2S HAL *)
      hal <-- create HAL ;;
      modify_ctx (set_i2s_hal hal) ;;;
      match hal with
      | None => ret ESP_ERR_NO_MEM
      | Some _ =>
      (* 2. reference ring buffer *)
      rb <-- create RB ;;
      modify_ctx (set_reference_rb rb) ;;;
      match rb with
      | None => destroy HAL hal ;;; ret ESP_ERR_NO_MEM
      | Some _ =>
      (* 3. playback controller *)
      pc <-- create PC ;;
      modify_ctx (set_playback_ctrl pc) ;;;
      match pc with
      | None => destroy RB rb ;;; destroy HAL hal ;;; ret ESP_ERR_NO_MEM
      | Some _ =>
      r <-- playback_controller_get_reference_buffer pc ;;
      modify_ctx (set_reference_rb r) ;;;
      (* 4. AFE wrapper *)
      afe <-- create AFE ;;
      modify_ctx (set_afe_wrapper afe) ;;;
      match afe with
      | None => destroy PC pc ;;; destroy HAL hal ;;; ret ESP_ERR_NO_MEM
      | Some _ =>
      (* 5. button handler *)
      btn <-- create BTN ;;
      modify_ctx (set_button_handler btn) ;;;
      match btn with
      | None => destroy AFE afe ;;; destroy PC pc ;;; destroy HAL hal ;;; ret ESP_ERR_NO_MEM
      | Some _ =>
        modify_ctx (set_initialized true) ;;; ret ESP_OK
      end end end end end
    end
  end.

(** ** Event relays *)

(** [afe_event_handler] *)
Definition afe_event_handler (event : afe_event_t) : M unit :=
  c <-- get_ctx ;;
  match event_callback (config c) with
  | None => ret tt
  | Some _ =>
    let mgr_event :=
      match afe_type event with
      | AFE_EVENT_WAKEUP_DETECTED =>
          mkEvent AUDIO_MGR_EVENT_WAKEUP_DETECTED
                  (afe_wake_word_index event) (afe_volume_db event)
      | AFE_EVENT_VAD_START => mkEvent AUDIO_MGR_EVENT_VAD_START 0 0
      | AFE_EVENT_VAD_END => mkEvent AUDIO_MGR_EVENT_VAD_END 0 0
      end in
    emit (AppEvent (event_callback (config c)) mgr_event (user_ctx (config c)))
  end.

(** [button_event_handler] *)
Definition button_event_handler (event : button_event_type_t) : M unit :=
  c <-- get_ctx ;;
  match event_callback (config c) with
  | None => ret tt
  | Some _ =>
    let mgr_event :=
      match event with
      | BUTTON_EVENT_PRESS => mkEvent AUDIO_MGR_EVENT_BUTTON_TRIGGER 0 0
      | BUTTON_EVENT_RELEASE => mkEvent AUDIO_MGR_EVENT_BUTTON_RELEASE 0 0
      end in
    emit (AppEvent (event_callback (config c)) mgr_event (user_ctx (config c)))
  end.

(** ** Control plane *)

(** [audio_manager_start] *)
Definition audio_manager_start : M esp_err_t :=
  c <-- get_ctx ;;
  if negb (initialized c) then ret ESP_ERR_INVALID_STATE else
  if running c then ret ESP_OK else
  modify_ctx (set_running true) ;;; ret ESP_OK.

(** [audio_manager_stop] *)
Definition audio_manager_stop : M esp_err_t :=
  c <-- get_ctx ;;
  if negb (running c) then ret ESP_OK else
  modify_ctx (set_running false) ;;;
  modify_ctx (set_recording false) ;;;
  ret ESP_OK.

(** [audio_manager_start_recording] *)
Definition audio_manager_start_recording : M esp_err_t :=
  c <-- get_ctx ;;
  if negb (initialized c) then ret ESP_ERR_INVALID_STATE else
  modify_ctx (set_recording true) ;;; ret ESP_OK.

(** [audio_manager_stop_recording] *)
Definition audio_manager_stop_recording : M esp_err_t :=
  c <-- get_ctx ;;
  if negb (recording c) then ret ESP_OK else
  modify_ctx (set_recording false) ;;; ret ESP_OK.

(** [audio_manager_play_audio]; [pcm_data] is the sample pointer. *)
Definition audio_manager_play_audio (pcm_data : ptr) (sample_count : nat) : M esp_err_t :=
  c <-- get_ctx ;;
  if negb (initialized c) || match pcm_data with None => true | Some _ => false end || Nat.eqb sample_count 0
  then ret ESP_ERR_INVALID_ARG
  else playback_controller_write (playback_ctrl c) pcm_data sample_count.

(** [audio_manager_stop_playback] *)
Definition audio_manager_stop_playback : M esp_err_t :=
  c <-- get_ctx ;;
  if negb (initialized c) then ret ESP_OK else
  playback_controller_stop (playback_ctrl c).

(** [audio_manager_update_wakeup_config]; [cfg = None] is a NULL argument. *)
Definition audio_manager_update_wakeup_config (cfg : option audio_mgr_wakeup_config_t) : M esp_err_t :=
  c <-- get_ctx ;;
  if negb (initialized c) then ret ESP_ERR_INVALID_ARG else
  match cfg with
  | None => ret ESP_ERR_INVALID_ARG
  | Some w =>
    modify_ctx (set_wakeup_config w) ;;;
    let afe_wakeup := Build_afe_wakeup_config_t (wk_enabled w) (wake_word_name w)
                        (model_partition w) (sensitivity w) in
    afe_wrapper_update_wakeup_config (afe_wrapper c) afe_wakeup
  end.

(** [audio_manager_get_wakeup_config]: the copied-out configuration, if any. *)
Definition audio_manager_get_wakeup_config (out_present : bool)
  : M (esp_err_t * option audio_mgr_wakeup_config_t) :=
  c <-- get_ctx ;;
  if negb (initialized c) || negb out_present then ret (ESP_ERR_INVALID_ARG, None) else
  ret (ESP_OK, Some (wakeup_config (config c))).

(** [audio_manager_is_running], [audio_manager_is_recording], [audio_manager_is_playing] *)
Definition audio_manager_is_running : M bool := c <-- get_ctx ;; ret (running c).
Definition audio_manager_is_recording : M bool := c <-- get_ctx ;; ret (recording c).
Definition audio_manager_is_playing : M bool :=
  c <-- get_ctx ;; playback_controller_is_running (playback_ctrl c).

(** [audio_manager_deinit] *)
Definition audio_manager_deinit : M unit :=
  c <-- get_ctx ;;
  if negb (initialized c) then ret tt else
  audio_manager_stop ;;;
  audio_manager_stop_playback ;;;
  c1 <-- get_ctx ;;
  destroy BTN (button_handler c1) ;;; modify_ctx (set_button_handler None) ;;;
  c2 <-- get_ctx ;;
  destroy AFE (afe_wrapper c2) ;;; modify_ctx (set_afe_wrapper None) ;;;
  c3 <-- get_ctx ;;
  destroy PC (playback_ctrl c3) ;;; modify_ctx (set_playback_ctrl None) ;;;
  c4 <-- get_ctx ;;
  destroy HAL (i2s_hal c4) ;;; modify_ctx (set_i2s_hal None) ;;;
  modify_ctx (fun _ => ctx_zero).

(** [afe_record_handler]: processed PCM from the AFE goes to the
    application's record callback, if one is set. *)
Definition afe_record_handler (pcm_data : ptr) (samples : nat) : M unit :=
  c <-- get_ctx ;;
  match record_callback c with
  | None => ret tt
  | Some _ => emit (AppRecord (record_callback c) pcm_data samples (record_ctx c))
  end.

(** [audio_manager_trigger_conversation] *)
Definition audio_manager_trigger_conversation : M esp_err_t :=
  c <-- get_ctx ;;
  if negb (initialized c) then ret ESP_ERR_INVALID_STATE else
  let event := mkEvent AUDIO_MGR_EVENT_BUTTON_TRIGGER 0 0 in
  match event_callback (config c) with
  | None => ret tt
  | Some _ => emit (AppEvent (event_callback (config c)) event (user_ctx (config c)))
  end ;;;
  ret ESP_OK.

(** [audio_manager_get_playback_free_space] *)
Definition audio_manager_get_playback_free_space : M nat :=
  c <-- get_ctx ;;
  if negb (initialized c) || match playback_ctrl c with None => true | Some _ => false end
  then ret 0%nat
  else emit (PcFreeSpace (playback_ctrl c)) ;;; ret (e_pc_free_space E (playback_ctrl c)).

(** [audio_manager_start_playback] *)
Definition audio_manager_start_playback : M esp_err_t :=
  c <-- get_ctx ;;
  if negb (initialized c) then ret ESP_ERR_INVALID_STATE else
  playback_controller_start (playback_ctrl c).

(** [audio_manager_clear_playback_buffer] *)
Definition audio_manager_clear_playback_buffer : M esp_err_t :=
  c <-- get_ctx ;;
  if negb (initialized c) then ret ESP_ERR_INVALID_STATE else
  playback_controller_clear (playback_ctrl c).

(** [audio_manager_set_volume]: the argument is a [uint8_t]. *)
Definition audio_manager_set_volume (v : Byte.byte) : M unit :=
  let volume := Z.of_N (Byte.to_N v) in
  let volume := if volume >? 100 then 100 else volume in
  modify_ctx (set_volume volume).

(** [audio_manager_get_volume] *)
Definition audio_manager_get_volume : M Z := c <-- get_ctx ;; ret (volume c).

(** [audio_manager_set_record_callback] *)
Definition audio_manager_set_record_callback (callback user_ctx : ptr) : M unit :=
  modify_ctx (set_record_cb callback user_ctx).

End Manager.

(** ** [audio_config_app_build] (main/audio_config_app.c)

    [cfg = None] is a NULL output pointer.  Every field of the modelled
    configuration is overwritten after [AUDIO_MANAGER_DEFAULT_CONFIG()], so
    the result does not depend on the macro.  The two string literals are
    non-null pointers, given here as fixed addresses. *)
Definition lit_wake_word_name : ptr := Some 1000%nat.  (* "小鸭小鸭" *)
Definition lit_model_partition : ptr := Some 1001%nat. (* "model" *)

Definition audio_config_app_build (cfg : option audio_mgr_config_t) (event_cb user_ctx : ptr)
  : option audio_mgr_config_t :=
  match cfg with
  | None => None
  | Some _ =>
    Some (Build_audio_mgr_config_t
      (Build_audio_mgr_hw_config
         (Build_i2s_port_config 1 15 2 39 16000 32)
         (Build_i2s_port_config 0 48 38 47 16000 16)
         (Build_button_config 0 true))
      (Build_audio_mgr_wakeup_config_t false lit_wake_word_name lit_model_partition 2 8000 1200)
      (Build_audio_mgr_vad_config true 2 200 400)
      (Build_audio_mgr_afe_config true true true 1)
      event_cb user_ctx)
  end.

(** ** The public API as one step of a client program *)

Inductive api_op :=
| OpInit (cfg : option audio_mgr_config_t)
| OpDeinit | OpStart | OpStop | OpTrigger | OpStartRecording | OpStopRecording
| OpPlayAudio (pcm_data : ptr) (n : nat)
| OpGetFreeSpace | OpStartPlayback | OpStopPlayback | OpClearPlayback
| OpSetVolume (v : Byte.byte) | OpGetVolume
| OpUpdateWakeup (cfg : option audio_mgr_wakeup_config_t) | OpGetWakeup (out_present : bool)
| OpIsRunning | OpIsRecording | OpIsPlaying
| OpSetRecordCallback (cb u : ptr)
| OpAfeEvent (ev : afe_event_t) | OpButtonEvent (ev : button_event_type_t)
| OpAfeRecord (pcm : ptr) (samples : nat).

Definition discard {A} (m : M A) : M unit := m ;;; ret tt.

Definition api_step (E : Env) (op : api_op) : M unit :=
  match op with
  | OpInit cfg => discard (audio_manager_init E cfg)
  | OpDeinit => audio_manager_deinit E
  | OpStart => discard audio_manager_start
  | OpStop => discard audio_manager_stop
  | OpTrigger => discard audio_manager_trigger_conversation
  | OpStartRecording => discard audio_manager_start_recording
  | OpStopRecording => discard audio_manager_stop_recording
  | OpPlayAudio d n => discard (audio_manager_play_audio E d n)
  | OpGetFreeSpace => discard (audio_manager_get_playback_free_space E)
  | OpStartPlayback => discard (audio_manager_start_playback E)
  | OpStopPlayback => discard (audio_manager_stop_playback E)
  | OpClearPlayback => discard (audio_manager_clear_playback_buffer E)
  | OpSetVolume v => audio_manager_set_volume v
  | OpGetVolume => discard audio_manager_get_volume
  | OpUpdateWakeup cfg => discard (audio_manager_update_wakeup_config E cfg)
  | OpGetWakeup b => discard (audio_manager_get_wakeup_config b)
  | OpIsRunning => discard audio_manager_is_running
  | OpIsRecording => discard audio_manager_is_recording
  | OpIsPlaying => discard (audio_manager_is_playing E)
  | OpSetRecordCallback cb u => audio_manager_set_record_callback cb u
  | OpAfeEvent ev => afe_event_handler ev
  | OpButtonEvent ev => button_event_handler ev
  | OpAfeRecord pcm n => afe_record_handler pcm n
  end.

(** A run: each step with the collaborators' answers at that time. *)
Fixpoint api_run (ops : list (Env * api_op)) (w : world) : world :=
  match ops with
  | [] => w
  | (E, op) :: rest => api_run rest (snd (api_step E op w))
  end.

(** ** Counting collaborator creations in a call log *)

Definition collab_eqb (a b : collab) : bool :=
  match a, b with
  | HAL, HAL | RB, RB | PC, PC | AFE, AFE | BTN, BTN => true
  | _, _ => false
  end.

Definition is_create (k : collab) (c : call) : bool :=
  match c with Create k' => collab_eqb k k' | _ => false end.

Definition creations (k : collab) (l : list call) : nat := List.length (filter (is_create k) l).

(** ** Concrete collaborators for evaluation

    [env_ok n]: every creation succeeds, except the collaborators for which
    [fails] answers [true]; the handles are 1 (HAL), 2 (RB), 3 (PC), 4 (AFE),
    5 (BTN) and the playback controller's reference buffer is 6. *)

Definition handle_of (k : collab) : nat :=
  match k with HAL => 1 | RB => 2 | PC => 3 | AFE => 4 | BTN => 5 end%nat.

Definition env_with (fails : collab -> bool) (afe_result : esp_err_t) : Env := {|
  e_create := fun k => if fails k then None else Some (handle_of k);
  e_pc_reference := fun _ => Some 6%nat;
  e_pc_write := fun _ _ _ => ESP_OK;
  e_pc_start := fun _ => ESP_OK;
  e_pc_stop := fun _ => ESP_OK;
  e_pc_clear := fun _ => ESP_OK;
  e_pc_free_space := fun _ => 0%nat;
  e_pc_is_running := fun h => match h with Some _ => true | None => false end;
  e_afe_update := fun _ _ => afe_result |}.

Definition env_all_ok : Env := env_with (fun _ => false) ESP_OK.

(** A configuration as built by [audio_config_app_build], with event
    callback at address 100 and user context at address 200. *)
Definition app_port (p b l d r w : Z) : i2s_port_config := Build_i2s_port_config p b l d r w.
Definition app_config : audio_mgr_config_t :=
  Build_audio_mgr_config_t
    (Build_audio_mgr_hw_config (app_port 1 15 2 39 16000 32) (app_port 0 48 38 47 16000 16)
       (Build_button_config 0 true))
    (Build_audio_mgr_wakeup_config_t false (Some 300%nat) (Some 301%nat) 2 8000 1200)
    (Build_audio_mgr_vad_config true 2 200 400)
    (Build_audio_mgr_afe_config true true true 1)
    (Some 100%nat) (Some 200%nat).

Definition w_fresh : world := mkWorld ctx_zero [].

Example init_fresh_ok :
  fst (audio_manager_init env_all_ok (Some app_config) w_fresh) = ESP_OK.
Proof. reflexivity. Qed.

Example init_fresh_log :
  log (snd (audio_manager_init env_all_ok (Some app_config) w_fresh)) =
  [Create HAL; Create RB; Create PC; PcGetReference (Some 3%nat); Create AFE; Create BTN].
Proof. reflexivity. Qed.

Ltac unfold_m :=
  unfold bind, ret, get_ctx, modify_ctx, emit, create, destroy,
    playback_controller_get_reference_buffer in *.

(** The already-initialized fast path of [audio_manager_init]. *)
Lemma init_fast_path (E : Env) (cfg : option audio_mgr_config_t) (w : world) :
  initialized (ctx w) = true -> audio_manager_init E cfg w = (ESP_OK, w).
Proof.
  intro H. unfold audio_manager_init. unfold_m. rewrite H. reflexivity.
Qed.

(** The log and context after a successful first-time [audio_manager_init]. *)
Lemma init_success_inv (E : Env) (cf : audio_mgr_config_t) (w0 w1 : world) :
  initialized (ctx w0) = false ->
  audio_manager_init E (Some cf) w0 = (ESP_OK, w1) ->
  initialized (ctx w1) = true /\
  log w1 = log w0 ++ [Create HAL; Create RB; Create PC;
                      PcGetReference (e_create E PC); Create AFE; Create BTN].
Proof.
  intros H0 H1. destruct w0 as [c l]. simpl in H0.
  unfold audio_manager_init in H1. unfold_m. cbn in H1. rewrite H0 in H1. cbn in H1.
  destruct (event_callback cf); [| discriminate].
  destruct (e_create E HAL); [| discriminate].
  destruct (e_create E RB); [| discriminate].
  destruct (e_create E PC); [| discriminate].
  destruct (e_create E AFE); [| discriminate].
  destruct (e_create E BTN); [| discriminate].
  apply (f_equal snd) in H1; cbn in H1; subst w1. cbn. split; [reflexivity |].
  rewrite <- !app_assoc. reflexivity.
Qed.

Lemma creations_app (k : collab) (l1 l2 : list call) :
  creations k (l1 ++ l2) = (creations k l1 + creations k l2)%nat.
Proof. unfold creations. rewrite filter_app, length_app. reflexivity. Qed.

(** ** Claim theorems *)

(** C8: on an already-initialized context, [audio_manager_init] returns
    success whatever its argument, even a NULL config or a config without
    event callback: the fast path is taken before argument validation, and
    the world (context and call log) is left unchanged. *)
Theorem init_initialized_ignores_args (E : Env) (cfg : option audio_mgr_config_t) (w : world)
  (Hinit : initialized (ctx w) = true) :
  audio_manager_init E cfg w = (ESP_OK, w).
Proof. apply init_fast_path; exact Hinit. Qed.

Lemma init_initialized_ignores_args_witness :
  initialized (ctx (snd (audio_manager_init env_all_ok (Some app_config) w_fresh))) = true /\
  audio_manager_init env_all_ok None (snd (audio_manager_init env_all_ok (Some app_config) w_fresh))
  = (ESP_OK, snd (audio_manager_init env_all_ok (Some app_config) w_fresh)).
Proof.
  split; [reflexivity |].
  apply (init_initialized_ignores_args env_all_ok None
           (snd (audio_manager_init env_all_ok (Some app_config) w_fresh))).
  reflexivity.
Defined.

(** C3: [audio_manager_init] is idempotent.  On every initialized context a
    call returns success and changes nothing (no field of the context, no
    collaborator call); and after a successful first-time init, a second init
    with the same valid config returns success without any call, so each
    collaborator has been created exactly once across both calls. *)
Theorem init_idempotent (E : Env) (cf : audio_mgr_config_t) (w0 w1 : world)
  (Hfresh : initialized (ctx w0) = false)
  (Hfirst : audio_manager_init E (Some cf) w0 = (ESP_OK, w1)) :
  (forall (cfg : audio_mgr_config_t) (w : world), initialized (ctx w) = true ->
     audio_manager_init E (Some cfg) w = (ESP_OK, w)) /\
  audio_manager_init E (Some cf) w1 = (ESP_OK, w1) /\
  (forall k : collab, creations k (log w1) = S (creations k (log w0))).
Proof.
  destruct (init_success_inv E cf w0 w1 Hfresh Hfirst) as [Hinit Hlog].
  split; [intros cfg w H; apply init_fast_path; exact H |].
  split; [apply init_fast_path; exact Hinit |].
  intro k. rewrite Hlog, creations_app.
  destruct k; unfold creations; simpl; lia.
Qed.

Lemma init_idempotent_witness :
  initialized (ctx w_fresh) = false /\
  audio_manager_init env_all_ok (Some app_config) w_fresh
    = (ESP_OK, snd (audio_manager_init env_all_ok (Some app_config) w_fresh)) /\
  audio_manager_init env_all_ok (Some app_config)
      (snd (audio_manager_init env_all_ok (Some app_config) w_fresh))
    = (ESP_OK, snd (audio_manager_init env_all_ok (Some app_config) w_fresh)).
Proof.
  split; [reflexivity |]. split; [reflexivity |].
  apply (init_idempotent env_all_ok app_config w_fresh
           (snd (audio_manager_init env_all_ok (Some app_config) w_fresh)));
    reflexivity.
Defined.

(** C4, counterexample: on an initialized context, [audio_manager_init] with
    a NULL config returns [ESP_OK], not [ESP_ERR_INVALID_ARG], and the
    context stays initialized. *)
Lemma init_null_config_on_initialized :
  let w1 := snd (audio_manager_init env_all_ok (Some app_config) w_fresh) in
  fst (audio_manager_init env_all_ok None w1) = ESP_OK /\
  initialized (ctx (snd (audio_manager_init env_all_ok None w1))) = true.
Proof. vm_compute. split; reflexivity. Qed.

(** C4 (amended): on an uninitialized context, [audio_manager_init] with a
    NULL config, or with a config whose event callback is NULL, returns
    [ESP_ERR_INVALID_ARG], mutates no field of the context and calls no
    collaborator; [initialized] stays false. *)
Theorem init_invalid_args_uninitialized (E : Env) (cfg : option audio_mgr_config_t) (w : world)
  (Hfresh : initialized (ctx w) = false)
  (Habsent : cfg = None \/ exists cf, cfg = Some cf /\ event_callback cf = None) :
  audio_manager_init E cfg w = (ESP_ERR_INVALID_ARG, w) /\
  initialized (ctx (snd (audio_manager_init E cfg w))) = false.
Proof.
  assert (Hrun : audio_manager_init E cfg w = (ESP_ERR_INVALID_ARG, w)).
  { unfold audio_manager_init. unfold_m. rewrite Hfresh.
    destruct Habsent as [-> | [cf [-> Hcb]]]; [reflexivity |].
    rewrite Hcb. reflexivity. }
  split; [exact Hrun |]. rewrite Hrun. exact Hfresh.
Qed.

Definition app_config_no_cb : audio_mgr_config_t :=
  Build_audio_mgr_config_t (hw_config app_config) (wakeup_config app_config)
    (vad_config app_config) (afe_config app_config) None (user_ctx app_config).

Lemma init_invalid_args_uninitialized_witness :
  audio_manager_init env_all_ok (Some app_config_no_cb) w_fresh = (ESP_ERR_INVALID_ARG, w_fresh) /\
  audio_manager_init env_all_ok None w_fresh = (ESP_ERR_INVALID_ARG, w_fresh).
Proof.
  split.
  - apply (init_invalid_args_uninitialized env_all_ok (Some app_config_no_cb) w_fresh).
    + reflexivity.
    + right. exists app_config_no_cb. split; reflexivity.
  - apply (init_invalid_args_uninitialized env_all_ok None w_fresh).
    + reflexivity.
    + left. reflexivity.
Defined.

(** An initialized context after [audio_manager_start_recording] alone:
    recording is on, listening is off. *)
Definition w_init : world := snd (audio_manager_init env_all_ok (Some app_config) w_fresh).
Definition w_recording_only : world := snd (audio_manager_start_recording w_init).

Example w_recording_only_flags :
  initialized (ctx w_recording_only) = true /\ running (ctx w_recording_only) = false /\
  recording (ctx w_recording_only) = true.
Proof. vm_compute. repeat split. Qed.

(** C2, counterexample: on an initialized context where only [recording] is
    true, [audio_manager_stop] returns [ESP_OK] but leaves [recording] true. *)
Lemma stop_keeps_recording_when_not_running :
  fst (audio_manager_stop w_recording_only) = ESP_OK /\
  recording (ctx (snd (audio_manager_stop w_recording_only))) = true.
Proof. vm_compute. split; reflexivity. Qed.

(** C2 (amended): [audio_manager_stop] always returns [ESP_OK] and calls no
    collaborator.  When [running] is true it sets both [running] and
    [recording] to false; when [running] is false it changes nothing, so
    [recording] keeps its value.  A second call is a no-op returning
    [ESP_OK]. *)
Theorem stop_flags (w : world) :
  audio_manager_stop w =
    (ESP_OK, if running (ctx w)
             then mkWorld (set_recording false (set_running false (ctx w))) (log w)
             else w) /\
  audio_manager_stop (snd (audio_manager_stop w)) = (ESP_OK, snd (audio_manager_stop w)).
Proof.
  unfold audio_manager_stop; unfold_m.
  destruct (running (ctx w)) eqn:Hr; simpl.
  - split; reflexivity.
  - rewrite Hr. simpl. split; reflexivity.
Qed.

(** C5: [audio_manager_play_audio] returns [ESP_ERR_INVALID_ARG] without any
    call when the context is uninitialized, the sample pointer is NULL or the
    count is zero; otherwise it makes exactly one call, the playback
    controller's write on the stored handle with the same pointer and count,
    and returns its result unchanged.  The result is [ESP_ERR_INVALID_ARG]
    with the world untouched exactly in the first case. *)
Theorem play_audio_guard (E : Env) (pcm_data : ptr) (n : nat) (w : world) :
  let bad := negb (initialized (ctx w)) || (match pcm_data with None => true | Some _ => false end)
             || Nat.eqb n 0 in
  audio_manager_play_audio E pcm_data n w =
    (if bad then (ESP_ERR_INVALID_ARG, w)
     else (e_pc_write E (playback_ctrl (ctx w)) pcm_data n,
           mkWorld (ctx w) (log w ++ [PcWrite (playback_ctrl (ctx w)) pcm_data n]))) /\
  ((fst (audio_manager_play_audio E pcm_data n w) = ESP_ERR_INVALID_ARG /\
    snd (audio_manager_play_audio E pcm_data n w) = w) <-> bad = true).
Proof.
  intro bad.
  assert (Hrun : audio_manager_play_audio E pcm_data n w =
    (if bad then (ESP_ERR_INVALID_ARG, w)
     else (e_pc_write E (playback_ctrl (ctx w)) pcm_data n,
           mkWorld (ctx w) (log w ++ [PcWrite (playback_ctrl (ctx w)) pcm_data n])))).
  { unfold audio_manager_play_audio, playback_controller_write, bad. unfold_m.
    destruct (negb (initialized (ctx w)) || _ || _); reflexivity. }
  split; [exact Hrun |]. rewrite Hrun.
  destruct bad; simpl.
  - split; auto.
  - split; [| discriminate].
    intros [_ Hw]. destruct w as [c l]. simpl in Hw. inversion Hw as [Hl].
    apply (f_equal (@List.length call)) in Hl. rewrite length_app in Hl. simpl in Hl. lia.
Qed.

Example play_audio_null : audio_manager_play_audio env_all_ok None 10 w_init = (ESP_ERR_INVALID_ARG, w_init).
Proof. reflexivity. Qed.
Example play_audio_zero : audio_manager_play_audio env_all_ok (Some 7%nat) 0 w_init = (ESP_ERR_INVALID_ARG, w_init).
Proof. reflexivity. Qed.

(** C6: a wake-word event from the AFE makes exactly one call of the
    application's event callback, with [AUDIO_MGR_EVENT_WAKEUP_DETECTED] and
    the inbound [wake_word_index] and [volume_db] copied unchanged, and the
    registered user context; with no event callback registered nothing
    happens. *)
Theorem afe_wakeup_relayed (ev : afe_event_t) (w : world)
  (Hwake : afe_type ev = AFE_EVENT_WAKEUP_DETECTED) :
  afe_event_handler ev w =
    match event_callback (config (ctx w)) with
    | None => (tt, w)
    | Some cb =>
      (tt, mkWorld (ctx w)
             (log w ++ [AppEvent (Some cb)
                          (mkEvent AUDIO_MGR_EVENT_WAKEUP_DETECTED
                             (afe_wake_word_index ev) (afe_volume_db ev))
                          (user_ctx (config (ctx w)))]))
    end.
Proof.
  unfold afe_event_handler; unfold_m. rewrite Hwake.
  destruct (event_callback (config (ctx w))); reflexivity.
Qed.

Definition wake_2_m12 : afe_event_t := Build_afe_event_t AFE_EVENT_WAKEUP_DETECTED 2 (-12).

Lemma afe_wakeup_relayed_witness :
  afe_event_handler wake_2_m12 w_init =
    (tt, mkWorld (ctx w_init)
           (log w_init ++ [AppEvent (Some 100%nat)
                             (mkEvent AUDIO_MGR_EVENT_WAKEUP_DETECTED 2 (-12)) (Some 200%nat)])).
Proof. apply (afe_wakeup_relayed wake_2_m12 w_init). reflexivity. Defined.

(** [audio_manager_init] reads only the context: run on a world with a
    longer log it makes the same calls and reaches the same context. *)
Lemma init_log_frame (E : Env) (cfg : option audio_mgr_config_t) (c : audio_manager_ctx_t)
  (l : list call) :
  audio_manager_init E cfg (mkWorld c l) =
    (fst (audio_manager_init E cfg (mkWorld c [])),
     mkWorld (ctx (snd (audio_manager_init E cfg (mkWorld c []))))
             (l ++ log (snd (audio_manager_init E cfg (mkWorld c []))))).
Proof.
  unfold audio_manager_init; unfold_m; simpl.
  destruct (initialized c); simpl; [rewrite app_nil_r; reflexivity |].
  destruct cfg as [cf |]; simpl; [| rewrite app_nil_r; reflexivity].
  destruct (event_callback cf); simpl; [| rewrite app_nil_r; reflexivity].
  destruct (e_create E HAL); simpl; [| reflexivity].
  destruct (e_create E RB); simpl; [| rewrite <- !app_assoc; reflexivity].
  destruct (e_create E PC); simpl; [| rewrite <- !app_assoc; reflexivity].
  destruct (e_create E AFE); simpl; [| rewrite <- !app_assoc; reflexivity].
  destruct (e_create E BTN); simpl; rewrite <- !app_assoc; reflexivity.
Qed.

(** C7: [audio_manager_deinit] does nothing on an uninitialized context.  On
    an initialized context with its four handles set, it stops listening,
    stops playback on the playback controller, destroys the button handler,
    the AFE wrapper, the playback controller and the I2S HAL in that order,
    never destroys the reference buffer, and zeroes the context; afterwards
    [is_running] and [is_recording] are false, and a following init makes the
    same calls, returns the same result and reaches the same context as an
    init on the zero-initialised context of a fresh start. *)
Theorem deinit_teardown (E : Env) (w : world) (h p a b : nat)
  (Hinit : initialized (ctx w) = true)
  (Hh : i2s_hal (ctx w) = Some h) (Hp : playback_ctrl (ctx w) = Some p)
  (Ha : afe_wrapper (ctx w) = Some a) (Hb : button_handler (ctx w) = Some b) :
  (forall w', initialized (ctx w') = false -> audio_manager_deinit E w' = (tt, w')) /\
  audio_manager_deinit E w =
    (tt, mkWorld ctx_zero
           (log w ++ [PcStop (Some p); Destroy BTN b; Destroy AFE a; Destroy PC p; Destroy HAL h])) /\
  fst (audio_manager_is_running (snd (audio_manager_deinit E w))) = false /\
  fst (audio_manager_is_recording (snd (audio_manager_deinit E w))) = false /\
  (forall cfg : option audio_mgr_config_t,
     audio_manager_init E cfg (snd (audio_manager_deinit E w)) =
       (fst (audio_manager_init E cfg w_fresh),
        mkWorld (ctx (snd (audio_manager_init E cfg w_fresh)))
                (log (snd (audio_manager_deinit E w)) ++ log (snd (audio_manager_init E cfg w_fresh))))).
Proof.
  assert (Hrun : audio_manager_deinit E w =
    (tt, mkWorld ctx_zero
           (log w ++ [PcStop (Some p); Destroy BTN b; Destroy AFE a; Destroy PC p; Destroy HAL h]))).
  { unfold audio_manager_deinit, audio_manager_stop, audio_manager_stop_playback,
      playback_controller_stop; unfold_m.
    destruct w as [c l]; simpl in *. rewrite Hinit. simpl.
    destruct (running c); simpl; rewrite Hinit; simpl;
      rewrite Hp; simpl; rewrite Hb; simpl; rewrite Ha; simpl; rewrite Hp; simpl;
      rewrite Hh; simpl; rewrite <- !app_assoc; reflexivity. }
  split.
  { intros w' H'. unfold audio_manager_deinit; unfold_m. rewrite H'. reflexivity. }
  split; [exact Hrun |].
  rewrite Hrun. simpl. split; [reflexivity |]. split; [reflexivity |].
  intro cfg. apply init_log_frame.
Qed.

Lemma deinit_teardown_witness :
  audio_manager_deinit env_all_ok w_init =
    (tt, mkWorld ctx_zero
           (log w_init ++ [PcStop (Some 3%nat); Destroy BTN 5; Destroy AFE 4; Destroy PC 3;
                           Destroy HAL 1])).
Proof.
  apply (deinit_teardown env_all_ok w_init 1 3 4 5); reflexivity.
Defined.

(** C10: on an initialized context, [audio_manager_update_wakeup_config]
    stores the new wake-word configuration in the context and returns the
    AFE wrapper's answer unchanged; the stored configuration, as read back by
    [audio_manager_get_wakeup_config], is the new one whatever that answer
    is, also when the AFE update fails. *)
Theorem update_wakeup_not_atomic (E : Env) (w : world) (wc : audio_mgr_wakeup_config_t)
  (Hinit : initialized (ctx w) = true)
  (Hfail : e_afe_update E (afe_wrapper (ctx w))
             (Build_afe_wakeup_config_t (wk_enabled wc) (wake_word_name wc)
                (model_partition wc) (sensitivity wc)) <> ESP_OK) :
  let afe_wk := Build_afe_wakeup_config_t (wk_enabled wc) (wake_word_name wc)
                  (model_partition wc) (sensitivity wc) in
  fst (audio_manager_update_wakeup_config E (Some wc) w) = e_afe_update E (afe_wrapper (ctx w)) afe_wk /\
  fst (audio_manager_update_wakeup_config E (Some wc) w) <> ESP_OK /\
  log (snd (audio_manager_update_wakeup_config E (Some wc) w)) =
    log w ++ [AfeUpdateWakeup (afe_wrapper (ctx w)) afe_wk] /\
  fst (audio_manager_get_wakeup_config true (snd (audio_manager_update_wakeup_config E (Some wc) w)))
    = (ESP_OK, Some wc).
Proof.
  intro afe_wk.
  unfold audio_manager_update_wakeup_config, audio_manager_get_wakeup_config,
    afe_wrapper_update_wakeup_config; unfold_m.
  destruct w as [c l]; simpl in *. rewrite Hinit. simpl.
  split; [reflexivity |]. split; [exact Hfail |]. split; [reflexivity |].
  unfold set_wakeup_config, set_config; simpl. rewrite Hinit. reflexivity.
Qed.

Definition wakeup_new : audio_mgr_wakeup_config_t :=
  Build_audio_mgr_wakeup_config_t true (Some 400%nat) (Some 401%nat) 3 5000 900.

Definition env_afe_fails : Env := env_with (fun _ => false) ESP_FAIL.

Lemma update_wakeup_not_atomic_witness :
  fst (audio_manager_update_wakeup_config env_afe_fails (Some wakeup_new) w_init) = ESP_FAIL /\
  fst (audio_manager_get_wakeup_config true
         (snd (audio_manager_update_wakeup_config env_afe_fails (Some wakeup_new) w_init)))
    = (ESP_OK, Some wakeup_new).
Proof.
  destruct (update_wakeup_not_atomic env_afe_fails w_init wakeup_new) as [H1 [_ [_ H4]]].
  - reflexivity.
  - unfold env_afe_fails, env_with, ESP_FAIL, ESP_OK; simpl; discriminate.
  - split; [exact H1 | exact H4].
Defined.

(** Collaborators where only the ring-buffer creation (step 2) fails, and
    where only the AFE wrapper creation (step 4) fails. *)
Definition env_rb_fails : Env := env_with (fun k => collab_eqb k RB) ESP_OK.
Definition env_afe_create_fails : Env := env_with (fun k => collab_eqb k AFE) ESP_OK.

Definition w_after_afe_fail : world :=
  snd (audio_manager_init env_afe_create_fails (Some app_config) w_fresh).

(** C1, failing input: from the zero context, with the ring-buffer creation
    failing, init destroys the I2S HAL and returns [ESP_ERR_NO_MEM], but the
    context keeps the destroyed HAL handle, the config and volume 80.  With
    the AFE wrapper creation failing, init destroys the playback controller
    and the HAL only: the ring buffer created in step 2 is never destroyed,
    and the context keeps the destroyed playback-controller and HAL handles. *)
Theorem init_rollback_leaves_state :
  audio_manager_init env_rb_fails (Some app_config) w_fresh =
    (ESP_ERR_NO_MEM,
     mkWorld (mkCtx app_config (Some 1%nat) None None None None false false false 80 None None)
             [Create HAL; Create RB; Destroy HAL 1]) /\
  audio_manager_init env_afe_create_fails (Some app_config) w_fresh =
    (ESP_ERR_NO_MEM,
     mkWorld (mkCtx app_config (Some 1%nat) (Some 3%nat) None None (Some 6%nat)
                false false false 80 None None)
             [Create HAL; Create RB; Create PC; PcGetReference (Some 3%nat); Create AFE;
              Destroy PC 3; Destroy HAL 1]).
Proof. split; vm_compute; reflexivity. Qed.

(** [audio_manager_is_playing] queries the playback controller with the
    stored handle, with no check of [initialized]. *)
Lemma is_playing_unguarded (E : Env) (w : world) :
  audio_manager_is_playing E w =
    (e_pc_is_running E (playback_ctrl (ctx w)),
     mkWorld (ctx w) (log w ++ [PcIsRunning (playback_ctrl (ctx w))])).
Proof. reflexivity. Qed.

(** C9, failing input: after an init that failed at the AFE wrapper, the
    context is uninitialized, and [audio_manager_is_playing] passes the
    stored, already destroyed playback-controller handle 3 (not NULL) to the
    playback controller's is-running query. *)
Theorem is_playing_after_failed_init :
  initialized (ctx w_after_afe_fail) = false /\
  log (snd (audio_manager_is_playing env_afe_create_fails w_after_afe_fail)) =
    log w_after_afe_fail ++ [PcIsRunning (Some 3%nat)] /\
  In (Destroy PC 3) (log w_after_afe_fail).
Proof. vm_compute. split; [reflexivity |]. split; [reflexivity |]. right; right; right; right; right; left; reflexivity. Qed.

(** ** Further properties of the API *)

(** What every context reachable from the zero context satisfies. *)
Definition ctx_inv (c : audio_manager_ctx_t) : Prop :=
  (running c = true -> initialized c = true) /\
  (recording c = true -> initialized c = true) /\
  (0 <= volume c <= 100) /\
  (initialized c = true ->
     i2s_hal c <> None /\ playback_ctrl c <> None /\ afe_wrapper c <> None /\
     button_handler c <> None).

Lemma ctx_inv_zero : ctx_inv ctx_zero.
Proof. unfold ctx_inv; simpl; repeat split; try discriminate; lia. Qed.

Lemma init_inv (E : Env) (cfg : option audio_mgr_config_t) (w : world) :
  ctx_inv (ctx w) -> ctx_inv (ctx (snd (audio_manager_init E cfg w))).
Proof.
  destruct w as [c l]. intros [Hr [Hrec [Hv Hh]]].
  unfold audio_manager_init; unfold_m; simpl in *.
  destruct (initialized c) eqn:Hi; simpl; [unfold ctx_inv; auto |].
  destruct cfg as [cf |]; simpl; [| unfold ctx_inv; rewrite Hi; auto].
  destruct (event_callback cf); simpl; [| unfold ctx_inv; rewrite Hi; auto].
  destruct (running c) eqn:Hrun; [discriminate (Hr eq_refl) |].
  destruct (recording c) eqn:Hrc; [discriminate (Hrec eq_refl) |].
  destruct (e_create E HAL); destruct (e_create E RB); destruct (e_create E PC);
  destruct (e_create E AFE); destruct (e_create E BTN);
  unfold ctx_inv; simpl; rewrite ?Hi, ?Hrun, ?Hrc;
  repeat split; try discriminate; try lia.
Qed.

Lemma deinit_ctx (E : Env) (w : world) :
  ctx (snd (audio_manager_deinit E w)) = if initialized (ctx w) then ctx_zero else ctx w.
Proof.
  destruct w as [[cf h p b a r i ru re v rc rx] l].
  unfold audio_manager_deinit, audio_manager_stop, audio_manager_stop_playback,
    playback_controller_stop, destroy; unfold_m;
  unfold set_running, set_recording, set_button_handler, set_afe_wrapper,
    set_playback_ctrl, set_i2s_hal; cbn.
  destruct i; cbn; [| reflexivity].
  destruct ru, p, b, a, h; reflexivity.
Qed.

(** Query and delegation calls, and the collaborator callbacks, leave the
    context as it is. *)
Definition ctx_preserving (op : api_op) : bool :=
  match op with
  | OpTrigger | OpPlayAudio _ _ | OpGetFreeSpace | OpStartPlayback | OpStopPlayback
  | OpClearPlayback | OpGetVolume | OpGetWakeup _ | OpIsRunning | OpIsRecording
  | OpIsPlaying | OpAfeEvent _ | OpButtonEvent _ | OpAfeRecord _ _ => true
  | _ => false
  end.

Lemma api_step_frame (E : Env) (op : api_op) (w : world) :
  ctx_preserving op = true -> ctx (snd (api_step E op w)) = ctx w.
Proof.
  intro Hp. destruct w as [c l].
  destruct op; try discriminate Hp; cbn;
    unfold discard, audio_manager_trigger_conversation, audio_manager_play_audio,
      audio_manager_get_playback_free_space, audio_manager_start_playback,
      audio_manager_stop_playback, audio_manager_clear_playback_buffer,
      audio_manager_get_volume, audio_manager_get_wakeup_config, audio_manager_is_running,
      audio_manager_is_recording, audio_manager_is_playing, afe_event_handler,
      button_event_handler, afe_record_handler, playback_controller_write,
      playback_controller_start, playback_controller_stop, playback_controller_clear,
      playback_controller_is_running; unfold_m; cbn;
  repeat match goal with
         | |- context [match ?x with Some _ => _ | None => _ end] => destruct x; cbn
         | |- context [if ?x then _ else _] => destruct x; cbn
         end; reflexivity.
Qed.

Lemma api_step_inv (E : Env) (op : api_op) (w : world) :
  ctx_inv (ctx w) -> ctx_inv (ctx (snd (api_step E op w))).
Proof.
  intro Hinv.
  destruct (ctx_preserving op) eqn:Hp.
  { rewrite (api_step_frame E op w Hp). exact Hinv. }
  destruct op; try discriminate Hp; simpl.
  1: { unfold discard; unfold_m. pose proof (init_inv E cfg w Hinv) as H.
    destruct (audio_manager_init E cfg w); exact H. }
  1: { rewrite deinit_ctx. destruct (initialized (ctx w)); [apply ctx_inv_zero | exact Hinv]. }
  all: destruct w as [[cf0 h0 p0 b0 a0 r0 i0 ru0 re0 v0 rc0 rx0] l0];
    unfold discard, audio_manager_start, audio_manager_stop, audio_manager_start_recording,
      audio_manager_stop_recording, audio_manager_set_volume,
      audio_manager_update_wakeup_config, audio_manager_set_record_callback,
      afe_wrapper_update_wakeup_config; unfold_m;
    unfold set_running, set_recording, set_volume, set_record_cb, set_wakeup_config,
      set_config in *; cbn in *.
  all: unfold ctx_inv in *; cbn in *; destruct Hinv as [Hr [Hrec [Hv Hh]]].
  all: destruct i0, ru0, re0; cbn in *.
  all: repeat match goal with
         | |- context [match ?x with Some _ => _ | None => _ end] => destruct x; cbn in *
         | |- context [if ?x then _ else _] => destruct x eqn:?; cbn in *
         end.
  all: try (destruct (Hh eq_refl) as [? [? [? ?]]]).
  all: repeat split; auto; try lia; try discriminate.
Qed.

Lemma api_run_inv (ops : list (Env * api_op)) (w : world) :
  ctx_inv (ctx w) -> ctx_inv (ctx (api_run ops w)).
Proof.
  revert w. induction ops as [| [E op] rest IH]; intros w H; simpl; [exact H |].
  apply IH. apply api_step_inv. exact H.
Qed.

(** Every context reached from the zero context by any sequence of API calls
    and collaborator callbacks, whatever the collaborators answer: [running]
    and [recording] are only true when initialized, the volume is within
    0..100, and an initialized context holds the four collaborator handles
    (HAL, playback controller, AFE wrapper, button handler) non-null. *)
Theorem reachable_ctx_inv (ops : list (Env * api_op)) (l : list call) :
  let c := ctx (api_run ops (mkWorld ctx_zero l)) in
  (running c = true -> initialized c = true) /\
  (recording c = true -> initialized c = true) /\
  (0 <= volume c <= 100) /\
  (initialized c = true ->
     i2s_hal c <> None /\ playback_ctrl c <> None /\ afe_wrapper c <> None /\
     button_handler c <> None).
Proof. apply api_run_inv. apply ctx_inv_zero. Qed.

(** [audio_manager_set_volume] stores its [uint8_t] argument clamped to at
    most 100, with or without init, changing no other field and calling no
    collaborator; [audio_manager_get_volume] then returns that value. *)
Theorem set_get_volume (v : Byte.byte) (w : world) :
  let w' := snd (audio_manager_set_volume v w) in
  fst (audio_manager_get_volume w') = Z.min (Z.of_N (Byte.to_N v)) 100 /\
  w' = mkWorld (set_volume (Z.min (Z.of_N (Byte.to_N v)) 100) (ctx w)) (log w).
Proof.
  cbn. unfold audio_manager_set_volume, audio_manager_get_volume; unfold_m; cbn.
  destruct (Z.of_N (Byte.to_N v) >? 100) eqn:Hg.
  - apply Z.gtb_lt in Hg. rewrite Z.min_r by lia. auto.
  - rewrite Z.gtb_ltb, Z.ltb_ge in Hg. rewrite Z.min_l by lia. auto.
Qed.

(** [audio_manager_start]: before init it returns [ESP_ERR_INVALID_STATE]
    and changes nothing; after init it sets [running] (only), returns
    [ESP_OK], calls no collaborator, and a second call changes nothing. *)
Theorem start_behaviour (w : world) :
  (initialized (ctx w) = false -> audio_manager_start w = (ESP_ERR_INVALID_STATE, w)) /\
  (initialized (ctx w) = true ->
     audio_manager_start w =
       (ESP_OK, if running (ctx w) then w else mkWorld (set_running true (ctx w)) (log w)) /\
     audio_manager_start (snd (audio_manager_start w)) = (ESP_OK, snd (audio_manager_start w))).
Proof.
  destruct w as [[cf h p b a r i ru re v rc rx] l].
  unfold audio_manager_start; unfold_m; cbn.
  split; intro Hi; subst i; cbn; [reflexivity |].
  destruct ru; cbn; auto.
Qed.

(** [audio_manager_start_recording] needs init ([ESP_ERR_INVALID_STATE]
    otherwise, nothing changed) and then sets [recording] whatever
    [running] is; [audio_manager_stop_recording] always returns [ESP_OK] and
    leaves [recording] false, touching no other field and calling nothing. *)
Theorem recording_toggles (w : world) :
  (initialized (ctx w) = false ->
     audio_manager_start_recording w = (ESP_ERR_INVALID_STATE, w)) /\
  (initialized (ctx w) = true ->
     audio_manager_start_recording w = (ESP_OK, mkWorld (set_recording true (ctx w)) (log w))) /\
  audio_manager_stop_recording w =
    (ESP_OK, if recording (ctx w) then mkWorld (set_recording false (ctx w)) (log w) else w) /\
  recording (ctx (snd (audio_manager_stop_recording w))) = false.
Proof.
  destruct w as [[cf h p b a r i ru re v rc rx] l].
  unfold audio_manager_start_recording, audio_manager_stop_recording; unfold_m; cbn.
  split; [intro Hi; subst i; reflexivity |].
  split; [intro Hi; subst i; reflexivity |].
  destruct re; cbn; auto.
Qed.

(** Query and delegation calls ([trigger_conversation], [play_audio],
    [get_playback_free_space], [start/stop/clear playback], [get_volume],
    [get_wakeup_config], [is_running], [is_recording], [is_playing]) and the
    collaborator callbacks (AFE events, button events, AFE record data) never
    modify the context, whatever its state and the collaborators' answers. *)
Theorem queries_keep_ctx (E : Env) (op : api_op) (w : world)
  (Hq : ctx_preserving op = true) :
  ctx (snd (api_step E op w)) = ctx w.
Proof. apply api_step_frame; exact Hq. Qed.

Lemma queries_keep_ctx_witness :
  ctx (snd (api_step env_all_ok (OpPlayAudio (Some 7%nat) 10) w_init)) = ctx w_init.
Proof. apply (queries_keep_ctx env_all_ok (OpPlayAudio (Some 7%nat) 10) w_init). reflexivity. Defined.

(** [audio_manager_trigger_conversation]: before init it returns
    [ESP_ERR_INVALID_STATE] and calls nothing; after init it returns
    [ESP_OK] and, if an event callback is registered, calls it exactly once
    with [AUDIO_MGR_EVENT_BUTTON_TRIGGER] and the registered user context,
    whatever [running] and [recording] are; the context is unchanged. *)
Theorem trigger_conversation_dispatch (w : world) :
  (initialized (ctx w) = false ->
     audio_manager_trigger_conversation w = (ESP_ERR_INVALID_STATE, w)) /\
  (initialized (ctx w) = true ->
     audio_manager_trigger_conversation w =
       (ESP_OK,
        match event_callback (config (ctx w)) with
        | None => w
        | Some cb => mkWorld (ctx w)
                       (log w ++ [AppEvent (Some cb) (mkEvent AUDIO_MGR_EVENT_BUTTON_TRIGGER 0 0)
                                    (user_ctx (config (ctx w)))])
        end)).
Proof.
  destruct w as [[cf h p b a r i ru re v rc rx] l].
  unfold audio_manager_trigger_conversation; unfold_m; cbn.
  split; intro Hi; subst i; cbn; [reflexivity |].
  destruct (event_callback cf); reflexivity.
Qed.

(** [button_event_handler]: a press is relayed as one
    [AUDIO_MGR_EVENT_BUTTON_TRIGGER] event, a release as one
    [AUDIO_MGR_EVENT_BUTTON_RELEASE] event, both without payload and with the
    registered user context; with no event callback nothing happens.  This
    holds with or without init. *)
Theorem button_event_relayed (ev : button_event_type_t) (w : world) :
  button_event_handler ev w =
    match event_callback (config (ctx w)) with
    | None => (tt, w)
    | Some cb =>
      (tt, mkWorld (ctx w)
             (log w ++ [AppEvent (Some cb)
                          (mkEvent (match ev with
                                    | BUTTON_EVENT_PRESS => AUDIO_MGR_EVENT_BUTTON_TRIGGER
                                    | BUTTON_EVENT_RELEASE => AUDIO_MGR_EVENT_BUTTON_RELEASE
                                    end) 0 0)
                          (user_ctx (config (ctx w)))]))
    end.
Proof.
  unfold button_event_handler; unfold_m.
  destruct (event_callback (config (ctx w))); [| reflexivity].
  destruct ev; reflexivity.
Qed.

(** [afe_event_handler] on voice-activity events: VAD start and VAD end are
    relayed as one [AUDIO_MGR_EVENT_VAD_START] or [AUDIO_MGR_EVENT_VAD_END]
    event with a zero payload, whatever the inbound wake-word fields; with no
    event callback nothing happens. *)
Theorem afe_vad_relayed (ev : afe_event_t) (w : world) :
  (afe_type ev = AFE_EVENT_VAD_START ->
   afe_event_handler ev w =
     match event_callback (config (ctx w)) with
     | None => (tt, w)
     | Some cb => (tt, mkWorld (ctx w)
                     (log w ++ [AppEvent (Some cb) (mkEvent AUDIO_MGR_EVENT_VAD_START 0 0)
                                  (user_ctx (config (ctx w)))]))
     end) /\
  (afe_type ev = AFE_EVENT_VAD_END ->
   afe_event_handler ev w =
     match event_callback (config (ctx w)) with
     | None => (tt, w)
     | Some cb => (tt, mkWorld (ctx w)
                     (log w ++ [AppEvent (Some cb) (mkEvent AUDIO_MGR_EVENT_VAD_END 0 0)
                                  (user_ctx (config (ctx w)))]))
     end).
Proof.
  unfold afe_event_handler; unfold_m.
  split; intro Ht; rewrite Ht; destruct (event_callback (config (ctx w))); reflexivity.
Qed.

(** [audio_manager_set_record_callback] and [afe_record_handler]: after
    setting a callback (initialized or not), every PCM frame from the AFE is
    passed unchanged (same pointer, same sample count) to that callback with
    its user context, whatever the [recording] flag; after setting NULL,
    frames are dropped.  Setting the callback changes only those two fields. *)
Theorem record_callback_relay (cb u pcm : ptr) (n : nat) (w : world) :
  let w1 := snd (audio_manager_set_record_callback cb u w) in
  w1 = mkWorld (set_record_cb cb u (ctx w)) (log w) /\
  afe_record_handler pcm n w1 =
    (tt, match cb with
         | None => w1
         | Some _ => mkWorld (ctx w1) (log w1 ++ [AppRecord cb pcm n u])
         end).
Proof.
  cbn. unfold audio_manager_set_record_callback, afe_record_handler; unfold_m; cbn.
  split; [reflexivity |]. destruct cb; reflexivity.
Qed.

(** [audio_manager_get_playback_free_space] returns 0 without calling the
    playback controller when uninitialized or when the playback handle is
    NULL; otherwise it asks the controller once and returns its answer. *)
Theorem free_space_guard (E : Env) (w : world) :
  audio_manager_get_playback_free_space E w =
    match initialized (ctx w), playback_ctrl (ctx w) with
    | true, Some pc =>
        (e_pc_free_space E (Some pc), mkWorld (ctx w) (log w ++ [PcFreeSpace (Some pc)]))
    | _, _ => (0%nat, w)
    end.
Proof.
  destruct w as [[cf h p b a r i ru re v rc rx] l].
  unfold audio_manager_get_playback_free_space; unfold_m; cbn.
  destruct i, p; reflexivity.
Qed.

(** The playback delegations: [start_playback] and [clear_playback_buffer]
    return [ESP_ERR_INVALID_STATE] before init, [stop_playback] returns
    [ESP_OK]; none of them calls the controller then.  After init each makes
    exactly one call on the stored playback handle and returns its answer. *)
Theorem playback_delegation (E : Env) (w : world) :
  (initialized (ctx w) = false ->
     audio_manager_start_playback E w = (ESP_ERR_INVALID_STATE, w) /\
  audio_manager_clear_playback_buffer E w = (ESP_ERR_INVALID_STATE, w) /\
  audio_manager_stop_playback E w = (ESP_OK, w)) /\
  (initialized (ctx w) = true ->
     audio_manager_start_playback E w =
       (e_pc_start E (playback_ctrl (ctx w)),
        mkWorld (ctx w) (log w ++ [PcStart (playback_ctrl (ctx w))])) /\
  audio_manager_clear_playback_buffer E w =
       (e_pc_clear E (playback_ctrl (ctx w)),
        mkWorld (ctx w) (log w ++ [PcClear (playback_ctrl (ctx w))])) /\
  audio_manager_stop_playback E w =
       (e_pc_stop E (playback_ctrl (ctx w)),
        mkWorld (ctx w) (log w ++ [PcStop (playback_ctrl (ctx w))]))).
Proof.
  destruct w as [[cf h p b a r i ru re v rc rx] l].
  unfold audio_manager_start_playback, audio_manager_clear_playback_buffer,
    audio_manager_stop_playback, playback_controller_start, playback_controller_clear,
    playback_controller_stop; unfold_m; cbn.
  split; intro Hi; subst i; cbn; repeat split.
Qed.

(** A successful first-time [audio_manager_init] from a reachable
    uninitialized context stores the config, sets volume 80, leaves
    [running] and [recording] false, keeps the record callback, stores the
    handles returned by the four collaborator creations, and keeps as
    reference buffer the playback controller's own buffer (not the
    placeholder ring buffer it created in step 2). *)
Theorem init_success_state (E : Env) (cf : audio_mgr_config_t) (w0 w1 : world)
  (Hinv : ctx_inv (ctx w0)) (Hfresh : initialized (ctx w0) = false)
  (Hok : audio_manager_init E (Some cf) w0 = (ESP_OK, w1)) :
  let c := ctx w1 in
  initialized c = true /\ config c = cf /\ volume c = 80 /\
  running c = false /\ recording c = false /\
  i2s_hal c = e_create E HAL /\ playback_ctrl c = e_create E PC /\
  afe_wrapper c = e_create E AFE /\ button_handler c = e_create E BTN /\
  reference_rb c = e_pc_reference E (e_create E PC) /\
  record_callback c = record_callback (ctx w0) /\ record_ctx c = record_ctx (ctx w0).
Proof.
  destruct w0 as [[cf0 h p b a r i ru re v rc rx] l].
  destruct Hinv as [Hr [Hrec _]]; cbn in *. subst i.
  destruct ru; [discriminate (Hr eq_refl) |]. destruct re; [discriminate (Hrec eq_refl) |].
  unfold audio_manager_init in Hok; unfold_m; cbn in Hok.
  destruct (event_callback cf); [| discriminate].
  destruct (e_create E HAL) eqn:E1; [| discriminate].
  destruct (e_create E RB) eqn:E2; [| discriminate].
  destruct (e_create E PC) eqn:E3; [| discriminate].
  destruct (e_create E AFE) eqn:E4; [| discriminate].
  destruct (e_create E BTN) eqn:E5; [| discriminate].
  apply (f_equal snd) in Hok; cbn in Hok; subst w1. cbn.
  repeat split.
Qed.

Lemma init_success_state_witness :
  ctx (snd (audio_manager_init env_all_ok (Some app_config) w_fresh)) =
    mkCtx app_config (Some 1%nat) (Some 3%nat) (Some 5%nat) (Some 4%nat) (Some 6%nat)
      true false false 80 None None /\
  volume (ctx (snd (audio_manager_init env_all_ok (Some app_config) w_fresh))) = 80.
Proof.
  split; [reflexivity |].
  apply (init_success_state env_all_ok app_config w_fresh
           (snd (audio_manager_init env_all_ok (Some app_config) w_fresh)));
    [apply ctx_inv_zero | reflexivity | reflexivity].
Defined.

(** The calls of a first-time [audio_manager_init] that fails: whichever
    creation fails, init returns [ESP_ERR_NO_MEM], stays uninitialized, and
    destroys the collaborators created before, latest first.  The placeholder
    ring buffer of step 2 is destroyed only when step 3 fails; when step 4
    or 5 fails it is not destroyed. *)
Theorem init_failure_calls (E : Env) (cf : audio_mgr_config_t) (cb : nat) (w : world)
  (Hfresh : initialized (ctx w) = false) (Hcb : event_callback cf = Some cb) :
  let run := audio_manager_init E (Some cf) w in
  (e_create E HAL = None ->
     fst run = ESP_ERR_NO_MEM /\ initialized (ctx (snd run)) = false /\
     log (snd run) = log w ++ [Create HAL]) /\
  (forall h, e_create E HAL = Some h -> e_create E RB = None ->
     fst run = ESP_ERR_NO_MEM /\ initialized (ctx (snd run)) = false /\
     log (snd run) = log w ++ [Create HAL; Create RB; Destroy HAL h]) /\
  (forall h r, e_create E HAL = Some h -> e_create E RB = Some r -> e_create E PC = None ->
     fst run = ESP_ERR_NO_MEM /\ initialized (ctx (snd run)) = false /\
     log (snd run) = log w ++ [Create HAL; Create RB; Create PC; Destroy RB r; Destroy HAL h]) /\
  (forall h r p, e_create E HAL = Some h -> e_create E RB = Some r -> e_create E PC = Some p ->
     e_create E AFE = None ->
     fst run = ESP_ERR_NO_MEM /\ initialized (ctx (snd run)) = false /\
     log (snd run) = log w ++ [Create HAL; Create RB; Create PC; PcGetReference (Some p);
                               Create AFE; Destroy PC p; Destroy HAL h]) /\
  (forall h r p a, e_create E HAL = Some h -> e_create E RB = Some r -> e_create E PC = Some p ->
     e_create E AFE = Some a -> e_create E BTN = None ->
     fst run = ESP_ERR_NO_MEM /\ initialized (ctx (snd run)) = false /\
     log (snd run) = log w ++ [Create HAL; Create RB; Create PC; PcGetReference (Some p);
                               Create AFE; Create BTN; Destroy AFE a; Destroy PC p;
                               Destroy HAL h]).
Proof.
  destruct w as [[cf0 h0 p0 b0 a0 r0 i ru re v rc rx] l]. cbn in Hfresh. subst i.
  unfold audio_manager_init; unfold_m; cbn. rewrite Hcb. cbn.
  repeat split; intros;
    repeat match goal with H : e_create E _ = _ |- _ => rewrite H in *; clear H end;
    cbn; rewrite <- ?app_assoc; reflexivity.
Qed.

Lemma init_failure_calls_witness :
  log (snd (audio_manager_init env_afe_create_fails (Some app_config) w_fresh)) =
    [Create HAL; Create RB; Create PC; PcGetReference (Some 3%nat); Create AFE;
     Destroy PC 3; Destroy HAL 1].
Proof.
  destruct (init_failure_calls env_afe_create_fails app_config 100 w_fresh eq_refl eq_refl)
    as [_ [_ [_ [H4 _]]]].
  refine (proj2 (proj2 (H4 1%nat 2%nat 3%nat _ _ _ _))); reflexivity.
Defined.

(** Wake-word configuration: before init, or with a NULL argument,
    [update_wakeup_config] returns [ESP_ERR_INVALID_ARG] and changes nothing,
    and [get_wakeup_config] before init or with a NULL output returns
    [ESP_ERR_INVALID_ARG] and copies nothing.  After init, an update changes
    only the stored wake-word configuration, and a following get returns
    exactly the new configuration, whatever the AFE wrapper answered. *)
Theorem wakeup_config_roundtrip (E : Env) (wc : audio_mgr_wakeup_config_t) (w : world) :
  (initialized (ctx w) = false ->
     audio_manager_update_wakeup_config E (Some wc) w = (ESP_ERR_INVALID_ARG, w) /\
     audio_manager_get_wakeup_config true w = ((ESP_ERR_INVALID_ARG, None), w)) /\
  audio_manager_update_wakeup_config E None w = (ESP_ERR_INVALID_ARG, w) /\
  audio_manager_get_wakeup_config false w = ((ESP_ERR_INVALID_ARG, None), w) /\
  (initialized (ctx w) = true ->
     ctx (snd (audio_manager_update_wakeup_config E (Some wc) w)) = set_wakeup_config wc (ctx w) /\
     fst (audio_manager_get_wakeup_config true (snd (audio_manager_update_wakeup_config E (Some wc) w)))
       = (ESP_OK, Some wc)).
Proof.
  destruct w as [[cf h p b a r i ru re v rc rx] l].
  unfold audio_manager_update_wakeup_config, audio_manager_get_wakeup_config,
    afe_wrapper_update_wakeup_config; unfold_m; cbn.
  destruct i; cbn; repeat split; try (intros; discriminate).
Qed.

(** [audio_config_app_build] does nothing for a NULL output.  A
    configuration it builds with a non-NULL event callback passes the
    argument check of [audio_manager_init]: from an uninitialized context init
    returns [ESP_OK] or [ESP_ERR_NO_MEM], never [ESP_ERR_INVALID_ARG], and
    the stored configuration is the built one. *)
Theorem app_config_accepted_by_init (E : Env) (old : audio_mgr_config_t) (cb : nat) (u : ptr)
  (w : world) (Hfresh : initialized (ctx w) = false) :
  audio_config_app_build None (Some cb) u = None /\
  exists cfg, audio_config_app_build (Some old) (Some cb) u = Some cfg /\
    event_callback cfg = Some cb /\ user_ctx cfg = u /\
    (fst (audio_manager_init E (Some cfg) w) = ESP_OK \/
     fst (audio_manager_init E (Some cfg) w) = ESP_ERR_NO_MEM) /\
    config (ctx (snd (audio_manager_init E (Some cfg) w))) = cfg.
Proof.
  split; [reflexivity |].
  eexists; split; [reflexivity |]. split; [reflexivity |]. split; [reflexivity |].
  destruct w as [[cf0 h0 p0 b0 a0 r0 i ru re v rc rx] l]. cbn in Hfresh. subst i.
  unfold audio_manager_init; unfold_m; cbn.
  destruct (e_create E HAL), (e_create E RB), (e_create E PC), (e_create E AFE),
    (e_create E BTN); cbn; auto.
Qed.

Lemma app_config_accepted_by_init_witness :
  exists cfg, audio_config_app_build (Some zero_config) (Some 100%nat) (Some 200%nat) = Some cfg /\
    fst (audio_manager_init env_all_ok (Some cfg) w_fresh) = ESP_OK.
Proof.
  destruct (app_config_accepted_by_init env_all_ok zero_config 100 (Some 200%nat) w_fresh eq_refl)
    as [_ [cfg [Hb _]]].
  exists cfg. split; [exact Hb |].
  apply (f_equal (fun o => match o with Some c => c | None => zero_config end)) in Hb.
  cbn in Hb. rewrite <- Hb. reflexivity.
Defined.
